(** * RegionData: a data container holding at most one region column

    Shallow embedding of [glue/core/data_region.py].  The class [RegionData]
    specialises the generic [Data] container: [add_component] dispatches on
    the shape of its argument, the properties [center_x_id] / [center_y_id]
    read the extended component, and two queries relate the center
    components to the external links of the data set.

    Python objects mutated in place are modelled by explicit state passing:
    an operation takes the container and returns its outcome together with
    the container as the call leaves it, also when the call raises. *)

From Stdlib Require Import String List Bool Arith Lia.
Import ListNotations.
Open Scope string_scope.

(** ** Component identifiers *)

(** A [ComponentID] is compared by object identity in glue; the embedding
    gives every identifier the serial number under which the container
    created it, next to its label. *)
Record ComponentID : Type := mkCid {
  cid_label : string;
  cid_uuid : nat
}.

Definition cid_eqb (a b : ComponentID) : bool :=
  Nat.eqb (cid_uuid a) (cid_uuid b) && String.eqb (cid_label a) (cid_label b).

(** Modelled from the spec: [ComponentID.__str__] is not part of this file;
    an identifier is named in messages by its label. *)
Definition ComponentID_str (c : ComponentID) : string := cid_label c.

(** [cid in ids] for a collection of identifiers. *)
Definition cid_in (c : ComponentID) (ids : list ComponentID) : bool :=
  existsb (cid_eqb c) ids.

(** ** Exceptions and results *)

Inductive exn : Type :=
| ValueError (msg : string)
| AttributeError (msg : string)
| UnresolvedReference.

Inductive result (A : Type) : Type :=
| Ok (a : A)
| Raise (e : exn).
Arguments Ok {A} a.
Arguments Raise {A} e.

Section RegionData.

(** The geometry library, the coordinates it yields and the transform
    functions carried by links are external: they are parameters. *)
Context {Geometry Coord Func : Type}.

(** [s.representative_point()], read as the pair [(rep.x, rep.y)]. *)
Variable representative_point : Geometry -> Coord * Coord.

(** *** Values, components and links *)

(** An element of an array-like argument. *)
Inductive Value : Type :=
| VGeometry (g : Geometry)
| VNumber (v : Coord)
| VOther (s : string).

(** [isinstance(s, shapely.Geometry)] *)
Definition isinstance_Geometry (s : Value) : bool :=
  match s with VGeometry _ => true | _ => false end.

(** A stored column: an ordinary [Component], or an [ExtendedComponent]
    holding geometries and the identifiers [x], [y] of its centers. *)
Inductive Component : Type :=
| PlainComponent (data : list Value)
| ExtendedComponent (data : list Geometry) (x y : ComponentID).

(** The [component] argument of [add_component]: a [Component] instance or
    an array-like object. *)
Inductive component_like : Type :=
| IsComponent (c : Component)
| ArrayLike (a : list Value).

Definition isinstance_ExtendedComponent (component : component_like) : bool :=
  match component with
  | IsComponent (ExtendedComponent _ _ _) => true
  | _ => false
  end.

Definition component_length (c : Component) : nat :=
  match c with
  | PlainComponent data => length data
  | ExtendedComponent data _ _ => length data
  end.

(** Modelled from the spec: the link class is not part of this file.  A
    link exposes its from-ids, its to-ids, a forward and an inverse
    function (absent when the link has none) and the identifiers it
    governs, tested by [cid in link]. *)
Record Link : Type := mkLink {
  get_from_ids : list ComponentID;
  get_to_ids : list ComponentID;
  get_using : option Func;
  get_inverse : option Func;
  link_cids : list ComponentID
}.

(** *** The container *)

Record RegionData : Type := mkRegionData {
  components : list (ComponentID * Component);
  next_uuid : nat;
  _extended_component_id : option ComponentID;
  external_links : list (ComponentID * Link)
}.

(** [RegionData.__init__] before any component is added. *)
Definition init (links : list (ComponentID * Link)) : RegionData :=
  {| components := [];
     next_uuid := 0;
     _extended_component_id := None;
     external_links := links |}.

(** The property [extended_component_id]. *)
Definition extended_component_id (self : RegionData) : option ComponentID :=
  _extended_component_id self.

Fixpoint lookup {A : Type} (c : ComponentID) (l : list (ComponentID * A))
  : option A :=
  match l with
  | [] => None
  | (k, v) :: tl => if cid_eqb c k then Some v else lookup c tl
  end.

(** Modelled from the spec: [Data.get_component] is not part of this file.
    [get(id) -> Column]; there is no column for an identifier the store
    does not hold, nor for the unset slot. *)
Definition get_component (self : RegionData) (component_id : option ComponentID)
  : result Component :=
  match component_id with
  | None => Raise UnresolvedReference
  | Some c =>
      match lookup c (components self) with
      | Some comp => Ok comp
      | None => Raise UnresolvedReference
      end
  end.

(** Modelled from the spec: [Data._get_external_link] is not part of this
    file.  [lookup(id) -> Link | absent]. *)
Definition _get_external_link (self : RegionData) (cid : ComponentID)
  : option Link :=
  lookup cid (external_links self).

(** Modelled from the spec: [is_equivalent_cid] lives in the link manager;
    [equivalent(id_a, id_b) -> bool]. *)
Variable is_equivalent_cid : RegionData -> ComponentID -> ComponentID -> bool.

(** *** State and exceptions *)

Definition M (A : Type) : Type := RegionData -> result A * RegionData.

Definition ret {A : Type} (a : A) : M A := fun self => (Ok a, self).

Definition raise {A : Type} (e : exn) : M A := fun self => (Raise e, self).

Definition bind {A B : Type} (m : M A) (k : A -> M B) : M B :=
  fun self =>
    match m self with
    | (Ok a, self') => k a self'
    | (Raise e, self') => (Raise e, self')
    end.

Definition read {A : Type} (f : RegionData -> A) : M A :=
  fun self => (Ok (f self), self).

(** [self._extended_component_id = cid] *)
Definition set_extended_component_id (cid : ComponentID) : M unit :=
  fun self =>
    (Ok tt,
     {| components := components self;
        next_uuid := next_uuid self;
        _extended_component_id := Some cid;
        external_links := external_links self |}).

Notation "x <- m ;; k" := (bind m (fun x => k))
  (at level 61, m at next level, right associativity).
Notation "m ;;; k" := (bind m (fun _ => k))
  (at level 61, right associativity).

(** [Component.autotyped]: an array-like argument becomes a plain column. *)
Definition autotyped (component : component_like) : Component :=
  match component with
  | IsComponent c => c
  | ArrayLike a => PlainComponent a
  end.

(** Modelled from the spec: [Data.add_component] is not part of this file.
    [insert(values, label) -> ColumnID]: the column is appended to the
    store under a new identifier carrying the label.  This is the outcome
    of an insertion the store admits; whether and how the store refuses a
    column, such as one whose row count differs from the stored ones, is
    not modelled, so a statement about a call describes it when the store
    admits the columns the call inserts. *)
Definition Data_add_component (component : component_like) (label : string)
  : M ComponentID :=
  fun self =>
    let component_id := mkCid label (next_uuid self) in
    (Ok component_id,
     {| components := (components self ++ [(component_id, autotyped component)])%list;
        next_uuid := S (next_uuid self);
        _extended_component_id := _extended_component_id self;
        external_links := external_links self |}).

(** *** [add_component] *)

(** The elements of [component] that are geometries: all of them once
    [all(isinstance(s, shapely.Geometry) for s in component)] holds. *)
Fixpoint geometries (component : list Value) : list Geometry :=
  match component with
  | [] => []
  | VGeometry g :: tl => g :: geometries tl
  | _ :: tl => geometries tl
  end.

(** The loop filling [center_x] and [center_y]. *)
Definition centers (component : list Geometry) : list Coord * list Coord :=
  fold_left
    (fun acc s =>
       let rep := representative_point s in
       ((fst acc ++ [fst rep])%list, (snd acc ++ [snd rep])%list))
    component ([], []).

Definition add_component (component : component_like) (label : string)
  : M ComponentID :=
  let otherwise : M ComponentID :=
    if isinstance_ExtendedComponent component then
      existing <- read extended_component_id ;;
      match existing with
      | Some cid =>
          raise (ValueError
                   ("Cannot add another ExtendedComponent; existing extended component: "
                      ++ ComponentID_str cid))
      | None =>
          cid <- Data_add_component component label ;;
          set_extended_component_id cid ;;;
          ret cid
      end
    else Data_add_component component label
  in
  match component with
  | ArrayLike a =>
      if forallb isinstance_Geometry a then
        let (center_x, center_y) := centers (geometries a) in
        cen_x_id <- Data_add_component (ArrayLike (map VNumber center_x))
                                       ("Center [x] for " ++ label) ;;
        cen_y_id <- Data_add_component (ArrayLike (map VNumber center_y))
                                       ("Center [y] for " ++ label) ;;
        let ext_component := ExtendedComponent (geometries a) cen_x_id cen_y_id in
        cid <- Data_add_component (IsComponent ext_component) label ;;
        set_extended_component_id cid ;;;
        ret cid
      else otherwise
  | IsComponent _ => otherwise
  end.

(** *** The center properties *)

Definition center_x_id (self : RegionData) : result ComponentID :=
  match get_component self (extended_component_id self) with
  | Ok (ExtendedComponent _ x _) => Ok x
  | Ok (PlainComponent _) =>
      Raise (AttributeError "'Component' object has no attribute 'x'")
  | Raise e => Raise e
  end.

Definition center_y_id (self : RegionData) : result ComponentID :=
  match get_component self (extended_component_id self) with
  | Ok (ExtendedComponent _ _ y) => Ok y
  | Ok (PlainComponent _) =>
      Raise (AttributeError "'Component' object has no attribute 'y'")
  | Raise e => Raise e
  end.

(** *** [get_transform_to_cid] *)

Definition get_transform_to_cid (self : RegionData) (axis : string)
  (other_cid : ComponentID) : result (option Func) :=
  let this :=
    if String.eqb axis "x" then center_x_id self
    else if String.eqb axis "y" then center_y_id self
    else Raise (ValueError "axis must be 'x' or 'y'") in
  match this with
  | Raise e => Raise e
  | Ok this_cid =>
      match _get_external_link self other_cid with
      | None =>
          (* [link.get_from_ids()] on [None] *)
          Raise (AttributeError
                   "'NoneType' object has no attribute 'get_from_ids'")
      | Some link =>
          let func :=
            if cid_in this_cid (get_from_ids link) then get_using link
            else if cid_in this_cid (get_to_ids link) then get_inverse link
            else None in
          match func with
          | Some f => Ok (Some f)
          | None => Ok None
          end
      end
  end.

(** *** [check_if_can_display] *)

Definition check_if_can_display (self : RegionData) (target_cid : ComponentID)
  : result bool :=
  match center_x_id self with
  | Raise e => Raise e
  | Ok cx =>
      match center_y_id self with
      | Raise e => Raise e
      | Ok cy =>
          let center_cids := [cx; cy] in
          if existsb (fun center_cid => is_equivalent_cid self center_cid target_cid)
               center_cids
          then Ok true
          else
            match _get_external_link self target_cid with
            | None => Ok false
            | Some link =>
                if existsb (fun center_cid => cid_in center_cid (link_cids link))
                     center_cids
                then Ok true
                else Ok false
            end
      end
  end.

(** *** Containers a program can build *)

(** A container starts empty and is changed by calls of [add_component]
    only, whether they return or raise. *)
Inductive reachable : RegionData -> Prop :=
| reachable_init (links : list (ComponentID * Link)) :
    reachable (init links)
| reachable_add_component (self : RegionData)
    (component : component_like) (label : string) :
    reachable self ->
    reachable (snd (add_component component label self)).

(** Every stored identifier was issued before [next_uuid]. *)
Definition ids_issued (self : RegionData) : Prop :=
  Forall (fun kv => cid_uuid (fst kv) < next_uuid self) (components self).

(** The slot, when set, names a stored [ExtendedComponent]. *)
Definition slot_resolves (self : RegionData) : Prop :=
  forall e, extended_component_id self = Some e ->
    exists data x y,
      lookup e (components self) = Some (ExtendedComponent data x y).

(** No two stored identifiers carry the same serial number. *)
Definition ids_distinct (self : RegionData) : Prop :=
  NoDup (map (fun kv => cid_uuid (fst kv)) (components self)).

(** [isinstance(c, ExtendedComponent)] for a stored column. *)
Definition is_extended (c : Component) : bool :=
  match c with
  | ExtendedComponent _ _ _ => true
  | PlainComponent _ => false
  end.

End RegionData.

Arguments Value : clear implicits.
Arguments Component : clear implicits.
Arguments component_like : clear implicits.
Arguments Link : clear implicits.
Arguments RegionData : clear implicits.
Arguments M : clear implicits.

(** ** A concrete instance: disks with their centers *)

Module Disks.

Inductive Disk : Type := disk (cx cy radius : nat).

(** The representative point of a disk is its center. *)
Definition disk_point (g : Disk) : nat * nat :=
  match g with disk cx cy _ => (cx, cy) end.

Definition State : Type := RegionData Disk nat (nat -> nat).

(** Two identifiers are equivalent when they are the same identifier. *)
Definition same_cid (_ : State) (a b : ComponentID) : bool := cid_eqb a b.

Definition empty : State := init [].

(** The example of the documentation: two unit disks under one label. *)
Definition two_disks : list Disk := [disk 0 0 1; disk 1 1 1].

Definition with_region : State :=
  snd (add_component disk_point (ArrayLike (map VGeometry two_disks)) "geo" empty).

Definition center_x : ComponentID := mkCid "Center [x] for geo" 0.
Definition center_y : ComponentID := mkCid "Center [y] for geo" 1.
Definition region : ComponentID := mkCid "geo" 2.

(** An identifier of another data set, and a link from [center_x] to it. *)
Definition other : ComponentID := mkCid "longitude" 40.
Definition unrelated : ComponentID := mkCid "population" 41.

Definition to_other : Link (nat -> nat) :=
  {| get_from_ids := [center_x];
     get_to_ids := [other];
     get_using := Some (fun v => v + 10);
     get_inverse := Some (fun v => v - 10);
     link_cids := [center_x; other] |}.

Definition linked : State :=
  {| components := components with_region;
     next_uuid := next_uuid with_region;
     _extended_component_id := _extended_component_id with_region;
     external_links := [(other, to_other)] |}.

(** The second example of the documentation: the centers are added as
    ordinary columns, then a pre-built extended component refers to them. *)
Definition with_centers : State :=
  snd (add_component disk_point (ArrayLike [VNumber 1; VNumber 1]) "Center [y]"
         (snd (add_component disk_point (ArrayLike [VNumber 0; VNumber 1])
                 "Center [x]" empty))).

Definition cen_x : ComponentID := mkCid "Center [x]" 0.
Definition cen_y : ComponentID := mkCid "Center [y]" 1.

Definition extended_comp : Component Disk nat :=
  ExtendedComponent two_disks cen_x cen_y.

(** A sequence that is not made of geometries only. *)
Definition mixed : list (Value Disk nat) :=
  [VGeometry (disk 0 0 1); VNumber 7].

End Disks.

(** ** Properties *)

Section Properties.

Context {Geometry Coord Func : Type}.
Variable representative_point : Geometry -> Coord * Coord.
Variable is_equivalent_cid :
  RegionData Geometry Coord Func -> ComponentID -> ComponentID -> bool.

Local Abbreviation State := (RegionData Geometry Coord Func).
Local Abbreviation Val := (Value Geometry Coord).

(** *** Identifiers *)

Lemma cid_eqb_refl (c : ComponentID) : cid_eqb c c = true.
Proof.
  unfold cid_eqb. now rewrite Nat.eqb_refl, String.eqb_refl.
Qed.

Lemma cid_eqb_eq (a b : ComponentID) : cid_eqb a b = true <-> a = b.
Proof.
  split.
  - unfold cid_eqb. intros H. apply andb_true_iff in H as [Hu Hl].
    apply Nat.eqb_eq in Hu. apply String.eqb_eq in Hl.
    destruct a, b; simpl in *; congruence.
  - intros ->. apply cid_eqb_refl.
Qed.

Lemma cid_eqb_uuid_neq (a b : ComponentID) :
  cid_uuid a <> cid_uuid b -> cid_eqb a b = false.
Proof.
  intros H. unfold cid_eqb. apply Nat.eqb_neq in H. now rewrite H.
Qed.

(** *** The geometry path, step by step *)

Lemma all_geometry (G : list Geometry) :
  forallb (@isinstance_Geometry Geometry Coord) (map VGeometry G) = true.
Proof.
  induction G as [|g G IH]; simpl; auto.
Qed.

Lemma geometries_map (G : list Geometry) :
  geometries (map (@VGeometry Geometry Coord) G) = G.
Proof.
  induction G as [|g G IH]; simpl; congruence.
Qed.

(** The appending loop computes the two projections of the representative
    points, in order. *)
Lemma centers_from (G : list Geometry) (xs ys : list Coord) :
  fold_left
    (fun acc s =>
       let rep := representative_point s in
       (fst acc ++ [fst rep], snd acc ++ [snd rep])%list)
    G (xs, ys)
  = ((xs ++ map (fun g => fst (representative_point g)) G)%list,
     (ys ++ map (fun g => snd (representative_point g)) G)%list).
Proof.
  revert xs ys.
  induction G as [|g G IH]; intros xs ys; simpl.
  - now rewrite !app_nil_r.
  - rewrite IH. now rewrite <- !app_assoc.
Qed.

Lemma centers_map (G : list Geometry) :
  centers representative_point G
  = (map (fun g => fst (representative_point g)) G,
     map (fun g => snd (representative_point g)) G).
Proof.
  unfold centers. now rewrite centers_from.
Qed.

(** What the geometry path does on any container, set slot or not. *)
Lemma add_component_geometry_path (a : list Val) (label : string) (self : State) :
  forallb isinstance_Geometry a = true ->
  let G := geometries a in
  let cen_x_id := mkCid ("Center [x] for " ++ label) (next_uuid self) in
  let cen_y_id := mkCid ("Center [y] for " ++ label) (S (next_uuid self)) in
  let cid := mkCid label (S (S (next_uuid self))) in
  add_component representative_point (ArrayLike a) label self
  = (Ok cid,
     {| components :=
          (components self ++
             [(cen_x_id,
               PlainComponent
                 (map VNumber (map (fun g => fst (representative_point g)) G)));
              (cen_y_id,
               PlainComponent
                 (map VNumber (map (fun g => snd (representative_point g)) G)));
              (cid, ExtendedComponent G cen_x_id cen_y_id)])%list;
        next_uuid := S (S (S (next_uuid self)));
        _extended_component_id := Some cid;
        external_links := external_links self |}).
Proof.
  intros Hall. unfold add_component. rewrite Hall, centers_map.
  unfold bind, Data_add_component, set_extended_component_id, ret; simpl.
  now rewrite <- !app_assoc.
Qed.

(** C2: adding a geometry sequence [G] under label [L] to a container with
    an empty slot appends exactly three columns, in this order: the numeric
    column of the representative points' x labelled "Center [x] for L", the
    one of their y labelled "Center [y] for L", and the extended component
    over [G] referring to the identifiers of these two; all three have the
    length of [G]; the slot is set to the identifier of the extended
    component, which is the value returned. *)
Theorem add_component_geometry_sequence
  (G : list Geometry) (L : string) (self : State) :
  extended_component_id self = None ->
  exists cen_x_id cen_y_id cid xs ys self',
    add_component representative_point (ArrayLike (map VGeometry G)) L self
      = (Ok cid, self')
    /\ components self'
       = (components self ++
            [(cen_x_id, PlainComponent (map VNumber xs));
             (cen_y_id, PlainComponent (map VNumber ys));
             (cid, ExtendedComponent G cen_x_id cen_y_id)])%list
    /\ xs = map (fun g => fst (representative_point g)) G
    /\ ys = map (fun g => snd (representative_point g)) G
    /\ cid_label cen_x_id = "Center [x] for " ++ L
    /\ cid_label cen_y_id = "Center [y] for " ++ L
    /\ cid_label cid = L
    /\ component_length (Geometry := Geometry)
         (PlainComponent (map VNumber xs)) = length G
    /\ component_length (Geometry := Geometry)
         (PlainComponent (map VNumber ys)) = length G
    /\ component_length (Coord := Coord)
         (ExtendedComponent G cen_x_id cen_y_id) = length G
    /\ length (components self') = 3 + length (components self)
    /\ extended_component_id self' = Some cid.
Proof.
  intros _.
  pose proof (add_component_geometry_path (map VGeometry G) L self
                (all_geometry G)) as H.
  cbv zeta in H. rewrite geometries_map in H.
  do 6 eexists. split; [exact H|]. simpl.
  repeat split; try reflexivity.
  - now rewrite !length_map.
  - now rewrite !length_map.
  - rewrite length_app. simpl. lia.
Qed.

(** C10: an empty sequence satisfies the element-wise geometry test
    vacuously and takes the geometry path: two empty center columns and an
    empty extended component are appended, the slot is set to the new
    identifier and that identifier is returned. *)
Theorem add_component_empty_sequence (label : string) (self : State) :
  let cen_x_id := mkCid ("Center [x] for " ++ label) (next_uuid self) in
  let cen_y_id := mkCid ("Center [y] for " ++ label) (S (next_uuid self)) in
  let cid := mkCid label (S (S (next_uuid self))) in
  let result := add_component representative_point (ArrayLike []) label self in
  fst result = Ok cid
  /\ components (snd result)
     = (components self ++
          [(cen_x_id, PlainComponent []);
           (cen_y_id, PlainComponent []);
           (cid, ExtendedComponent [] cen_x_id cen_y_id)])%list
  /\ extended_component_id (snd result) = Some cid.
Proof.
  cbv zeta.
  pose proof (add_component_geometry_path [] label self eq_refl) as H.
  cbv zeta in H. rewrite H. repeat split; reflexivity.
Qed.

(** C3: on a container whose slot is set, adding a pre-built extended
    component raises a [ValueError] whose message ends with the existing
    slot's identifier, and leaves the container as it was. *)
Theorem add_component_second_extended
  (self : State) (existing : ComponentID)
  (data : list Geometry) (x y : ComponentID) (label : string) :
  extended_component_id self = Some existing ->
  add_component representative_point
    (IsComponent (ExtendedComponent data x y)) label self
  = (Raise (ValueError
              ("Cannot add another ExtendedComponent; existing extended component: "
                 ++ ComponentID_str existing)),
     self).
Proof.
  intros H. unfold add_component, bind, read, raise. simpl. now rewrite H.
Qed.

(** C9: while the slot is unset, reading either center property raises. *)
Theorem center_ids_unset_slot (self : State) :
  extended_component_id self = None ->
  center_x_id self = Raise UnresolvedReference
  /\ center_y_id self = Raise UnresolvedReference.
Proof.
  intros H. unfold center_x_id, center_y_id. now rewrite H.
Qed.

(** C7: an axis other than "x" and "y" raises the invalid-axis
    [ValueError], whatever the container and the target identifier: neither
    the centers nor the links are consulted. *)
Theorem get_transform_to_cid_invalid_axis
  (self : State) (axis : string) (other_cid : ComponentID) :
  axis <> "x" -> axis <> "y" ->
  get_transform_to_cid self axis other_cid
  = Raise (ValueError "axis must be 'x' or 'y'").
Proof.
  intros Hx Hy. unfold get_transform_to_cid.
  apply String.eqb_neq in Hx. apply String.eqb_neq in Hy.
  now rewrite Hx, Hy.
Qed.

(** *** The store *)

Lemma lookup_app_some {A : Type} (c : ComponentID) (v : A)
  (l l' : list (ComponentID * A)) :
  lookup c l = Some v -> lookup c (l ++ l') = Some v.
Proof.
  induction l as [|[k w] l IH]; simpl; [discriminate|].
  destruct (cid_eqb c k); auto.
Qed.

Lemma lookup_app_fresh {A : Type} (c : ComponentID) (n : nat)
  (l l' : list (ComponentID * A)) :
  Forall (fun kv => cid_uuid (fst kv) < n) l ->
  n <= cid_uuid c ->
  lookup c (l ++ l') = lookup c l'.
Proof.
  intros Hl Hc. induction Hl as [|[k w] l Hk Hl IH]; simpl; auto.
  simpl in Hk. rewrite cid_eqb_uuid_neq by lia. exact IH.
Qed.

Lemma ids_issued_grow (old new : list (ComponentID * Component Geometry Coord))
  (n n' : nat) :
  Forall (fun kv => cid_uuid (fst kv) < n) old ->
  n <= n' ->
  Forall (fun kv => cid_uuid (fst kv) < n') new ->
  Forall (fun kv => cid_uuid (fst kv) < n') (old ++ new).
Proof.
  intros Hold Hle Hnew. apply Forall_app. split; auto.
  eapply Forall_impl; [|exact Hold]. simpl. intros kv H. lia.
Qed.

(** The generic insertion keeps the identifiers issued and lets the fresh
    identifier resolve to the inserted column. *)
Lemma Data_add_component_issued
  (component : component_like Geometry Coord) (label : string) (self : State) :
  ids_issued self ->
  ids_issued (snd (Data_add_component component label self)).
Proof.
  unfold ids_issued. simpl. intros H.
  apply (ids_issued_grow _ _ (next_uuid self)); auto.
Qed.

Lemma Data_add_component_lookup_new
  (component : component_like Geometry Coord) (label : string) (self : State) :
  ids_issued self ->
  lookup (mkCid label (next_uuid self))
    (components (snd (Data_add_component component label self)))
  = Some (autotyped component).
Proof.
  unfold ids_issued. simpl. intros H.
  rewrite (lookup_app_fresh _ (next_uuid self)); auto.
  simpl. now rewrite cid_eqb_refl.
Qed.

(** *** Invariants of [add_component] *)

Lemma add_component_ids_issued
  (component : component_like Geometry Coord) (label : string) (self : State) :
  ids_issued self ->
  ids_issued (snd (add_component representative_point component label self)).
Proof.
  intros H.
  assert (Hplain : forall c, ids_issued (snd (Data_add_component c label self)))
    by (intros c; now apply Data_add_component_issued).
  assert (Hext : forall c,
    isinstance_ExtendedComponent c = true ->
    ids_issued (snd (add_component representative_point c label self))).
  { intros [[|data x y]|a] Hc; try discriminate.
    unfold add_component, bind, read, raise. simpl.
    destruct (extended_component_id self); simpl; auto.
    exact (Hplain (IsComponent (ExtendedComponent data x y))). }
  destruct component as [[data|data x y]|a].
  - exact (Hplain (IsComponent (PlainComponent data))).
  - now apply Hext.
  - destruct (forallb isinstance_Geometry a) eqn:Hall.
    + rewrite (add_component_geometry_path a label self Hall).
      unfold ids_issued in *. simpl.
      apply (ids_issued_grow _ _ (next_uuid self)); auto;
        repeat constructor; simpl; lia.
    + unfold add_component. rewrite Hall. simpl. exact (Hplain (ArrayLike a)).
Qed.

Lemma add_component_slot_resolves
  (component : component_like Geometry Coord) (label : string) (self : State) :
  ids_issued self -> slot_resolves self ->
  slot_resolves (snd (add_component representative_point component label self)).
Proof.
  intros Hids Hslot.
  assert (Hplain : forall c,
    slot_resolves (snd (Data_add_component c label self))).
  { intros c e He. simpl in He. destruct (Hslot e He) as (data & x & y & Hl).
    exists data, x, y. simpl. now apply lookup_app_some. }
  destruct component as [[data|data x y]|a].
  - exact (Hplain (IsComponent (PlainComponent data))).
  - unfold add_component, bind, read, raise. simpl.
    destruct (extended_component_id self) eqn:Hs; simpl; auto.
    intros e He. unfold extended_component_id in He. simpl in He.
    injection He as <-. exists data, x, y.
    exact (Data_add_component_lookup_new
             (IsComponent (ExtendedComponent data x y)) label self Hids).
  - destruct (forallb isinstance_Geometry a) eqn:Hall.
    + rewrite (add_component_geometry_path a label self Hall).
      intros e He. unfold extended_component_id in He. simpl in He.
      injection He as <-. do 3 eexists. simpl.
      rewrite (lookup_app_fresh _ (next_uuid self)) by (auto; simpl; lia).
      simpl. rewrite !cid_eqb_uuid_neq by (simpl; lia).
      now rewrite cid_eqb_refl.
    + unfold add_component. rewrite Hall. simpl. exact (Hplain (ArrayLike a)).
Qed.

Lemma reachable_invariant (self : State) :
  reachable representative_point self ->
  ids_issued self /\ slot_resolves self.
Proof.
  induction 1 as [links|self component label Hr [Hids Hslot]].
  - split; [constructor|]. intros e He. discriminate.
  - split.
    + now apply add_component_ids_issued.
    + now apply add_component_slot_resolves.
Qed.

(** The center properties are functions of the slot and of the component
    stored under it, whatever the container. *)
Lemma center_ids_of_component
  (self : State) (e : ComponentID)
  (data : list Geometry) (x y : ComponentID) :
  extended_component_id self = Some e ->
  get_component self (Some e) = Ok (ExtendedComponent data x y) ->
  center_x_id self = Ok x /\ center_y_id self = Ok y.
Proof.
  intros Hs Hg. unfold center_x_id, center_y_id. now rewrite Hs, Hg.
Qed.

(** C8: in every container built by [add_component] calls, once the slot is
    set it names a stored extended component, and [center_x_id] and
    [center_y_id] are the two identifiers held by that component; no call
    can break this, since both properties read the component anew. *)
Theorem center_ids_follow_extended_component (self : State) (e : ComponentID) :
  reachable representative_point self ->
  extended_component_id self = Some e ->
  exists data x y,
    get_component self (extended_component_id self)
      = Ok (ExtendedComponent data x y)
    /\ center_x_id self = Ok x
    /\ center_y_id self = Ok y.
Proof.
  intros Hr Hs.
  destruct (reachable_invariant self Hr) as [_ Hslot].
  destruct (Hslot e Hs) as (data & x & y & Hl).
  exists data, x, y.
  assert (Hg : get_component self (Some e) = Ok (ExtendedComponent data x y))
    by (unfold get_component; now rewrite Hl).
  rewrite Hs. split; [exact Hg|].
  exact (center_ids_of_component self e data x y Hs Hg).
Qed.

(** *** The link queries *)

(** Without a link for the target, a valid axis on a container with a
    region column ends in the attribute lookup on [None]. *)
Lemma get_transform_to_cid_no_link
  (self : State) (axis : string) (other_cid this_cid : ComponentID) :
  (axis = "x" /\ center_x_id self = Ok this_cid)
  \/ (axis = "y" /\ center_y_id self = Ok this_cid) ->
  _get_external_link self other_cid = None ->
  get_transform_to_cid self axis other_cid
  = Raise (AttributeError "'NoneType' object has no attribute 'get_from_ids'").
Proof.
  intros [[-> Hc]|[-> Hc]] Hl; unfold get_transform_to_cid; simpl;
    now rewrite Hc, Hl.
Qed.

(** C5: with a link for the target and the center identifier of a valid
    axis, the result is the link's forward function when the center is
    among the from-ids, else its inverse function when the center is among
    the to-ids, else [None]; the from-ids are tested first. *)
Theorem get_transform_to_cid_linked
  (self : State) (axis : string) (other_cid this_cid : ComponentID)
  (link : Link Func) :
  (axis = "x" /\ center_x_id self = Ok this_cid)
  \/ (axis = "y" /\ center_y_id self = Ok this_cid) ->
  _get_external_link self other_cid = Some link ->
  get_transform_to_cid self axis other_cid
  = Ok (if cid_in this_cid (get_from_ids link) then get_using link
        else if cid_in this_cid (get_to_ids link) then get_inverse link
        else None).
Proof.
  intros [[-> Hc]|[-> Hc]] Hl; unfold get_transform_to_cid; simpl;
    rewrite Hc, Hl;
    destruct (cid_in this_cid (get_from_ids link));
    [ destruct (get_using link); reflexivity
    | destruct (cid_in this_cid (get_to_ids link));
      [ destruct (get_inverse link); reflexivity | reflexivity ]
    | destruct (get_using link); reflexivity
    | destruct (cid_in this_cid (get_to_ids link));
      [ destruct (get_inverse link); reflexivity | reflexivity ] ].
Qed.

(** C6: on a container with a region column, [check_if_can_display] is
    [True] when the target is equivalent to either center; otherwise
    [False] when the target has no link; otherwise [True] exactly when
    either center identifier belongs to that link. *)
Theorem check_if_can_display_cases
  (self : State) (target_cid cx cy : ComponentID) :
  center_x_id self = Ok cx ->
  center_y_id self = Ok cy ->
  check_if_can_display is_equivalent_cid self target_cid
  = Ok (if is_equivalent_cid self cx target_cid
           || is_equivalent_cid self cy target_cid
        then true
        else match _get_external_link self target_cid with
             | None => false
             | Some link =>
                 cid_in cx (link_cids link) || cid_in cy (link_cids link)
             end).
Proof.
  intros Hx Hy. unfold check_if_can_display. rewrite Hx, Hy. simpl.
  rewrite !orb_false_r.
  destruct (is_equivalent_cid self cx target_cid
            || is_equivalent_cid self cy target_cid); [reflexivity|].
  destruct (_get_external_link self target_cid) as [link|]; [|reflexivity].
  simpl. rewrite orb_false_r.
  now destruct (cid_in cx (link_cids link) || cid_in cy (link_cids link)).
Qed.

(** *** The branches of [add_component] *)

(** A pre-built extended component on an empty slot is stored as it is and
    becomes the slot. *)
Lemma add_component_extended_fresh
  (data : list Geometry) (x y : ComponentID) (label : string) (self : State) :
  extended_component_id self = None ->
  add_component representative_point
    (IsComponent (ExtendedComponent data x y)) label self
  = (Ok (mkCid label (next_uuid self)),
     {| components :=
          (components self ++
             [(mkCid label (next_uuid self), ExtendedComponent data x y)])%list;
        next_uuid := S (next_uuid self);
        _extended_component_id := Some (mkCid label (next_uuid self));
        external_links := external_links self |}).
Proof.
  intros H. unfold add_component, bind, read. simpl. now rewrite H.
Qed.

(** Everything that is neither an extended component nor a sequence of
    geometries goes to the generic insertion unchanged. *)
Lemma add_component_plain
  (component : component_like Geometry Coord) (label : string) (self : State) :
  isinstance_ExtendedComponent component = false ->
  (forall a, component = ArrayLike a -> forallb isinstance_Geometry a = false) ->
  add_component representative_point component label self
  = Data_add_component component label self.
Proof.
  intros Hext Harr. destruct component as [[data|data x y]|a].
  - reflexivity.
  - discriminate.
  - unfold add_component. now rewrite (Harr a eq_refl).
Qed.

(** The four ways a call can go. *)
Lemma add_component_cases
  (component : component_like Geometry Coord) (label : string) (self : State) :
  (exists a, component = ArrayLike a /\ forallb isinstance_Geometry a = true)
  \/ (exists data x y existing,
        component = IsComponent (ExtendedComponent data x y)
        /\ extended_component_id self = Some existing
        /\ add_component representative_point component label self
           = (Raise (ValueError
                       ("Cannot add another ExtendedComponent; existing extended component: "
                          ++ ComponentID_str existing)),
              self))
  \/ (exists data x y,
        component = IsComponent (ExtendedComponent data x y)
        /\ extended_component_id self = None)
  \/ (isinstance_ExtendedComponent component = false
      /\ (forall a, component = ArrayLike a ->
                    forallb isinstance_Geometry a = false)).
Proof.
  destruct component as [[data|data x y]|a].
  - right; right; right. split; [reflexivity|]. intros a Ha. discriminate.
  - destruct (extended_component_id self) as [existing|] eqn:Hs.
    + right; left. exists data, x, y, existing. repeat split; auto.
      unfold add_component, bind, read, raise. simpl. now rewrite Hs.
    + right; right; left. now exists data, x, y.
  - destruct (forallb isinstance_Geometry a) eqn:Hall.
    + left. now exists a.
    + right; right; right. split; [reflexivity|].
      intros a' Ha. now injection Ha as <-.
Qed.

(** X3: a plain [Component], or a sequence with an element that is not a
    geometry, is handed to the generic insertion: one column is appended
    under the given label, the returned identifier is its key, and the slot
    is left as it was, set or not. *)
Theorem add_component_delegates
  (component : component_like Geometry Coord) (label : string) (self : State) :
  (exists data, component = IsComponent (PlainComponent data))
  \/ (exists a, component = ArrayLike a
                /\ forallb isinstance_Geometry a = false) ->
  exists cid,
    fst (add_component representative_point component label self) = Ok cid
    /\ cid_label cid = label
    /\ components (snd (add_component representative_point component label self))
       = (components self ++ [(cid, autotyped component)])%list
    /\ extended_component_id
         (snd (add_component representative_point component label self))
       = extended_component_id self.
Proof.
  intros H.
  assert (Hplain : add_component representative_point component label self
                   = Data_add_component component label self).
  { destruct H as [(data & ->)|(a & -> & Hall)].
    - reflexivity.
    - apply add_component_plain; [reflexivity|].
      intros a' Ha. now injection Ha as <-. }
  rewrite Hplain. exists (mkCid label (next_uuid self)). simpl. auto.
Qed.

(** X6: whatever the argument, the columns present before a call are
    still there afterwards, in the same order and under the same
    identifiers; the call appends zero, one or three columns, issues as
    many identifiers, and never touches the external links. *)
Theorem add_component_extends_store
  (component : component_like Geometry Coord) (label : string) (self : State) :
  exists new,
    components (snd (add_component representative_point component label self))
    = (components self ++ new)%list
    /\ (length new = 0 \/ length new = 1 \/ length new = 3)
    /\ next_uuid (snd (add_component representative_point component label self))
       = next_uuid self + length new
    /\ external_links
         (snd (add_component representative_point component label self))
       = external_links self.
Proof.
  destruct (add_component_cases component label self)
    as [(a & -> & Hall)
       |[(data & x & y & existing & -> & Hs & Hadd)
        |[(data & x & y & -> & Hs)
         |(Hext & Harr)]]].
  - rewrite (add_component_geometry_path a label self Hall). simpl.
    eexists. split; [reflexivity|]. simpl.
    repeat split; auto. lia.
  - rewrite Hadd. simpl. exists []. rewrite app_nil_r. simpl.
    repeat split; auto.
  - rewrite (add_component_extended_fresh data x y label self Hs). simpl.
    eexists. split; [reflexivity|]. simpl. repeat split; auto. lia.
  - rewrite (add_component_plain component label self Hext Harr). simpl.
    eexists. split; [reflexivity|]. simpl. repeat split; auto. lia.
Qed.

(** *** Reading back what was added *)

Lemma get_component_app
  (self self' : State) (c : ComponentID) (comp : Component Geometry Coord)
  (new : list (ComponentID * Component Geometry Coord)) :
  components self' = (components self ++ new)%list ->
  get_component self (Some c) = Ok comp ->
  get_component self' (Some c) = Ok comp.
Proof.
  unfold get_component. intros -> H.
  destruct (lookup c (components self)) as [v|] eqn:Hl; [|discriminate].
  now rewrite (lookup_app_some c v _ new Hl).
Qed.

(** X4: after a pre-built extended component over centers [x] and [y] is
    added to a container with an empty slot, the slot is the returned
    identifier, which carries the given label, and [center_x_id] and
    [center_y_id] give back [x] and [y] as they were passed, whether or not
    the container holds columns under them. *)
Theorem add_component_prebuilt_read_back
  (data : list Geometry) (x y : ComponentID) (label : string) (self : State) :
  reachable representative_point self ->
  extended_component_id self = None ->
  exists cid self',
    add_component representative_point
      (IsComponent (ExtendedComponent data x y)) label self = (Ok cid, self')
    /\ cid_label cid = label
    /\ extended_component_id self' = Some cid
    /\ get_component self' (Some cid) = Ok (ExtendedComponent data x y)
    /\ center_x_id self' = Ok x
    /\ center_y_id self' = Ok y.
Proof.
  intros Hr Hs.
  destruct (reachable_invariant self Hr) as [Hids _].
  rewrite (add_component_extended_fresh data x y label self Hs).
  do 2 eexists. split; [reflexivity|].
  assert (Hg : forall s : State,
    components s
      = (components self ++
           [(mkCid label (next_uuid self), ExtendedComponent data x y)])%list ->
    get_component s (Some (mkCid label (next_uuid self)))
    = Ok (ExtendedComponent data x y)).
  { intros s Hc. unfold get_component. rewrite Hc.
    rewrite (lookup_app_fresh _ (next_uuid self)) by auto.
    simpl. now rewrite cid_eqb_refl. }
  split; [reflexivity|]. split; [reflexivity|].
  split; [now apply Hg|].
  apply (center_ids_of_component _ (mkCid label (next_uuid self)) data);
    [reflexivity | now apply Hg].
Qed.

(** X5: after a sequence of geometries is added, [center_x_id] and
    [center_y_id] name two different columns of the container, and these
    columns hold the x and the y of the representative points in the order
    of the sequence; this holds on a container whose slot was already set
    as well. *)
Theorem add_component_geometry_read_back
  (a : list Val) (label : string) (self : State) :
  reachable representative_point self ->
  forallb isinstance_Geometry a = true ->
  exists cen_x_id cen_y_id self',
    snd (add_component representative_point (ArrayLike a) label self) = self'
    /\ center_x_id self' = Ok cen_x_id
    /\ center_y_id self' = Ok cen_y_id
    /\ cen_x_id <> cen_y_id
    /\ get_component self' (Some cen_x_id)
       = Ok (PlainComponent
               (map VNumber
                  (map (fun g => fst (representative_point g)) (geometries a))))
    /\ get_component self' (Some cen_y_id)
       = Ok (PlainComponent
               (map VNumber
                  (map (fun g => snd (representative_point g)) (geometries a)))).
Proof.
  intros Hr Hall.
  destruct (reachable_invariant self Hr) as [Hids _].
  rewrite (add_component_geometry_path a label self Hall).
  do 3 eexists. split; [reflexivity|].
  assert (Hfresh : forall (c : ComponentID) l,
    next_uuid self <= cid_uuid c ->
    lookup c (components self ++ l) = lookup (A := Component Geometry Coord) c l).
  { intros c l Hc. now apply (lookup_app_fresh _ (next_uuid self)). }
  repeat split.
  - unfold center_x_id, get_component. simpl.
    rewrite Hfresh by (simpl; lia). simpl.
    rewrite !cid_eqb_uuid_neq by (simpl; lia).
    rewrite cid_eqb_refl. reflexivity.
  - unfold center_y_id, get_component. simpl.
    rewrite Hfresh by (simpl; lia). simpl.
    rewrite !cid_eqb_uuid_neq by (simpl; lia).
    rewrite cid_eqb_refl. reflexivity.
  - intros H. injection H as _ H. lia.
  - unfold get_component. simpl.
    rewrite Hfresh by (simpl; lia). simpl.
    rewrite cid_eqb_refl. reflexivity.
  - unfold get_component. simpl.
    rewrite Hfresh by (simpl; lia). simpl.
    rewrite cid_eqb_uuid_neq by (simpl; lia).
    rewrite cid_eqb_refl. reflexivity.
Qed.

(** X7: an identifier that resolves to a column before a call of
    [add_component] resolves to the same column after it, whatever was
    added and whether the call returned or raised. *)
Theorem add_component_keeps_columns
  (component : component_like Geometry Coord) (label : string) (self : State)
  (c : ComponentID) (comp : Component Geometry Coord) :
  get_component self (Some c) = Ok comp ->
  get_component (snd (add_component representative_point component label self))
    (Some c) = Ok comp.
Proof.
  intros Hg.
  destruct (add_component_cases component label self)
    as [(a & -> & Hall)
       |[(data & x & y & existing & -> & Hs & Hadd)
        |[(data & x & y & -> & Hs)
         |(Hext & Harr)]]].
  - rewrite (add_component_geometry_path a label self Hall).
    eapply get_component_app; [|exact Hg]. reflexivity.
  - now rewrite Hadd.
  - rewrite (add_component_extended_fresh data x y label self Hs).
    eapply get_component_app; [|exact Hg]. reflexivity.
  - rewrite (add_component_plain component label self Hext Harr).
    eapply get_component_app; [|exact Hg]. reflexivity.
Qed.

(** X8: a set slot is never cleared by [add_component], and it keeps its
    value unless the argument is a sequence made of geometries only. *)
Theorem add_component_keeps_slot
  (component : component_like Geometry Coord) (label : string) (self : State)
  (e : ComponentID) :
  extended_component_id self = Some e ->
  (exists e',
     extended_component_id
       (snd (add_component representative_point component label self))
     = Some e')
  /\ ((forall a, component = ArrayLike a ->
                 forallb isinstance_Geometry a = false) ->
      extended_component_id
        (snd (add_component representative_point component label self))
      = Some e).
Proof.
  intros He.
  destruct (add_component_cases component label self)
    as [(a & -> & Hall)
       |[(data & x & y & existing & -> & Hs & Hadd)
        |[(data & x & y & -> & Hs)
         |(Hext & Harr)]]].
  - rewrite (add_component_geometry_path a label self Hall). split.
    + eexists. reflexivity.
    + intros H. rewrite (H a eq_refl) in Hall. discriminate.
  - rewrite Hadd. simpl. split; [now exists e | now intros _].
  - congruence.
  - rewrite (add_component_plain component label self Hext Harr). simpl.
    split; [now exists e | now intros _].
Qed.

(** *** Further invariants of reachable containers *)

Lemma lookup_some_in {A : Type} (c : ComponentID) (v : A)
  (l : list (ComponentID * A)) :
  lookup c l = Some v -> In (c, v) l.
Proof.
  induction l as [|[k w] l IH]; simpl; [discriminate|].
  destruct (cid_eqb c k) eqn:Hck.
  - intros H. injection H as ->. apply cid_eqb_eq in Hck as ->. now left.
  - intros H. right. now apply IH.
Qed.

Lemma lookup_in_distinct {A : Type} (c : ComponentID) (v : A)
  (l : list (ComponentID * A)) :
  NoDup (map (fun kv => cid_uuid (fst kv)) l) ->
  In (c, v) l -> lookup c l = Some v.
Proof.
  induction l as [|[k w] l IH]; simpl; [contradiction|].
  intros Hnd [Heq|Hin].
  - injection Heq as -> ->. now rewrite cid_eqb_refl.
  - apply NoDup_cons_iff in Hnd as [Hk Hnd].
    rewrite cid_eqb_uuid_neq; [now apply IH|].
    intros Heq. apply Hk. rewrite <- Heq.
    exact (in_map (fun kv => cid_uuid (fst kv)) l (c, v) Hin).
Qed.

Lemma distinct_grow (old new : list (ComponentID * Component Geometry Coord))
  (n : nat) :
  Forall (fun kv => cid_uuid (fst kv) < n) old ->
  NoDup (map (fun kv => cid_uuid (fst kv)) old) ->
  Forall (fun kv => n <= cid_uuid (fst kv)) new ->
  NoDup (map (fun kv => cid_uuid (fst kv)) new) ->
  NoDup (map (fun kv => cid_uuid (fst kv)) (old ++ new)).
Proof.
  intros Hold Hnd Hnew Hnd'. rewrite map_app. apply NoDup_app; auto.
  intros u Hu Hu'.
  apply in_map_iff in Hu as (kv & <- & Hkv).
  apply in_map_iff in Hu' as (kv' & Heq & Hkv').
  rewrite Forall_forall in Hold, Hnew.
  specialize (Hold kv Hkv). specialize (Hnew kv' Hkv'). lia.
Qed.

Lemma add_component_ids_distinct
  (component : component_like Geometry Coord) (label : string) (self : State) :
  ids_issued self -> ids_distinct self ->
  ids_distinct (snd (add_component representative_point component label self)).
Proof.
  clear is_equivalent_cid.
  unfold ids_issued, ids_distinct. intros Hids Hnd.
  destruct (add_component_cases component label self)
    as [(a & -> & Hall)
       |[(data & x & y & existing & -> & Hs & Hadd)
        |[(data & x & y & -> & Hs)
         |(Hext & Harr)]]].
  - rewrite (add_component_geometry_path a label self Hall). simpl.
    apply (distinct_grow _ _ (next_uuid self)); auto.
    + repeat constructor; simpl; lia.
    + simpl. repeat constructor; simpl; intuition lia.
  - now rewrite Hadd.
  - rewrite (add_component_extended_fresh data x y label self Hs). simpl.
    apply (distinct_grow _ _ (next_uuid self)); auto;
      simpl; repeat constructor; simpl; intuition lia.
  - rewrite (add_component_plain component label self Hext Harr). simpl.
    apply (distinct_grow _ _ (next_uuid self)); auto;
      simpl; repeat constructor; simpl; intuition lia.
Qed.

Lemma reachable_ids_distinct (self : State) :
  reachable representative_point self -> ids_distinct self.
Proof.
  induction 1 as [links|self component label Hr IH].
  - constructor.
  - apply add_component_ids_distinct; auto.
    now apply reachable_invariant.
Qed.

(** While the slot is unset, no stored column is an extended component. *)
Lemma reachable_unset_no_extended (self : State) :
  reachable representative_point self ->
  extended_component_id self = None ->
  forallb (fun kv => negb (is_extended (snd kv))) (components self) = true.
Proof.
  induction 1 as [links|self component label Hr IH]; [reflexivity|].
  destruct (add_component_cases component label self)
    as [(a & -> & Hall)
       |[(data & x & y & existing & -> & Hs & Hadd)
        |[(data & x & y & -> & Hs)
         |(Hext & Harr)]]].
  - rewrite (add_component_geometry_path a label self Hall). discriminate.
  - rewrite Hadd. simpl. congruence.
  - rewrite (add_component_extended_fresh data x y label self Hs). discriminate.
  - rewrite (add_component_plain component label self Hext Harr). simpl.
    intros Hs. rewrite forallb_app, (IH Hs). simpl.
    destruct component as [[data|data x y]|a]; try reflexivity. discriminate.
Qed.

(** X9: in a container built by [add_component] calls, the slot is unset
    exactly when no stored column is an extended component. *)
Theorem reachable_slot_unset_iff (self : State) :
  reachable representative_point self ->
  extended_component_id self = None
  <-> forallb (fun kv => negb (is_extended (snd kv))) (components self) = true.
Proof.
  intros Hr. split; [now apply reachable_unset_no_extended|].
  intros Hall.
  destruct (extended_component_id self) as [e|] eqn:Hs; [|reflexivity].
  destruct (reachable_invariant self Hr) as [_ Hslot].
  destruct (Hslot e Hs) as (data & x & y & Hl).
  apply lookup_some_in in Hl.
  rewrite forallb_forall in Hall. specialize (Hall _ Hl). discriminate.
Qed.

(** X10: in a container built by [add_component] calls, every stored
    column is returned by [get_component] under its own identifier: no
    column is hidden by another one. *)
Theorem reachable_columns_resolve
  (self : State) (c : ComponentID) (comp : Component Geometry Coord) :
  reachable representative_point self ->
  In (c, comp) (components self) ->
  get_component self (Some c) = Ok comp.
Proof.
  intros Hr Hin. unfold get_component.
  now rewrite (lookup_in_distinct c comp _ (reachable_ids_distinct self Hr) Hin).
Qed.

(** *** The queries at their edges *)

(** X11: on a container whose slot is unset, both queries fail while
    reading the centers: [get_transform_to_cid] for either valid axis and
    [check_if_can_display] raise before any link or equivalence is looked
    up, whatever the target. *)
Theorem queries_without_region
  (self : State) (axis : string) (target_cid : ComponentID) :
  extended_component_id self = None ->
  axis = "x" \/ axis = "y" ->
  get_transform_to_cid self axis target_cid = Raise UnresolvedReference
  /\ check_if_can_display is_equivalent_cid self target_cid
     = Raise UnresolvedReference.
Proof.
  intros Hs Haxis.
  assert (Hx : center_x_id self = Raise UnresolvedReference)
    by (unfold center_x_id; now rewrite Hs).
  assert (Hy : center_y_id self = Raise UnresolvedReference)
    by (unfold center_y_id; now rewrite Hs).
  split.
  - unfold get_transform_to_cid.
    destruct Haxis as [-> | ->]; simpl; now rewrite ?Hx, ?Hy.
  - unfold check_if_can_display. now rewrite Hx.
Qed.

(** X12: a function returned by [get_transform_to_cid] always comes from
    the link of the target: it is the link's forward function with the
    axis' center among the from-ids, or its inverse function with that
    center among the to-ids and not among the from-ids. *)
Theorem get_transform_to_cid_some
  (self : State) (axis : string) (other_cid : ComponentID) (f : Func) :
  get_transform_to_cid self axis other_cid = Ok (Some f) ->
  exists this_cid link,
    ((axis = "x" /\ center_x_id self = Ok this_cid)
     \/ (axis = "y" /\ center_y_id self = Ok this_cid))
    /\ _get_external_link self other_cid = Some link
    /\ ((cid_in this_cid (get_from_ids link) = true
         /\ get_using link = Some f)
        \/ (cid_in this_cid (get_from_ids link) = false
            /\ cid_in this_cid (get_to_ids link) = true
            /\ get_inverse link = Some f)).
Proof.
  unfold get_transform_to_cid.
  set (this := if String.eqb axis "x" then center_x_id self
               else if String.eqb axis "y" then center_y_id self
               else Raise (ValueError "axis must be 'x' or 'y'")).
  assert (Hthis : forall c, this = Ok c ->
    (axis = "x" /\ center_x_id self = Ok c)
    \/ (axis = "y" /\ center_y_id self = Ok c)).
  { intros c. unfold this.
    destruct (String.eqb axis "x") eqn:Ex.
    - apply String.eqb_eq in Ex. auto.
    - destruct (String.eqb axis "y") eqn:Ey; [|discriminate].
      apply String.eqb_eq in Ey. auto. }
  destruct this as [this_cid|e]; [|discriminate].
  destruct (_get_external_link self other_cid) as [link|]; [|discriminate].
  intros H. exists this_cid, link.
  split; [now apply Hthis|]. split; [reflexivity|].
  destruct (cid_in this_cid (get_from_ids link)).
  - left. destruct (get_using link); [|discriminate].
    injection H as ->. auto.
  - destruct (cid_in this_cid (get_to_ids link)); [|discriminate].
    right. destruct (get_inverse link); [|discriminate].
    injection H as ->. auto.
Qed.

(** *** What a call returns *)

(** X13: a call of [add_component] that changes the slot returned
    normally; the new slot is the identifier it returned, and the column
    stored last is an extended component under that identifier. *)
Theorem add_component_slot_change
  (component : component_like Geometry Coord) (label : string) (self : State) :
  extended_component_id
    (snd (add_component representative_point component label self))
  <> extended_component_id self ->
  exists cid data x y old,
    fst (add_component representative_point component label self) = Ok cid
    /\ extended_component_id
         (snd (add_component representative_point component label self))
       = Some cid
    /\ components (snd (add_component representative_point component label self))
       = (old ++ [(cid, ExtendedComponent data x y)])%list.
Proof.
  destruct (add_component_cases component label self)
    as [(a & -> & Hall)
       |[(data & x & y & existing & -> & Hs & Hadd)
        |[(data & x & y & -> & Hs)
         |(Hext & Harr)]]].
  - rewrite (add_component_geometry_path a label self Hall). simpl. intros _.
    do 4 eexists.
    exists (components self ++
              [(mkCid ("Center [x] for " ++ label) (next_uuid self),
                PlainComponent
                  (map VNumber
                     (map (fun g => fst (representative_point g))
                        (geometries a))));
               (mkCid ("Center [y] for " ++ label) (S (next_uuid self)),
                PlainComponent
                  (map VNumber
                     (map (fun g => snd (representative_point g))
                        (geometries a))))])%list.
    repeat split. now rewrite <- app_assoc.
  - rewrite Hadd. simpl. intros H. now elim H.
  - rewrite (add_component_extended_fresh data x y label self Hs). simpl.
    intros _. exists (mkCid label (next_uuid self)), data, x, y, (components self).
    repeat split.
  - rewrite (add_component_plain component label self Hext Harr). simpl.
    intros H. now elim H.
Qed.

(** X14: in a container built by [add_component] calls, the identifier a
    further call returns carries the caller's label, is the key of the
    column stored last, and resolves to that column. *)
Theorem add_component_returned_id_resolves
  (component : component_like Geometry Coord) (label : string) (self : State)
  (cid : ComponentID) :
  reachable representative_point self ->
  fst (add_component representative_point component label self) = Ok cid ->
  cid_label cid = label
  /\ exists old comp,
       components (snd (add_component representative_point component label self))
       = (old ++ [(cid, comp)])%list
       /\ get_component
            (snd (add_component representative_point component label self))
            (Some cid)
          = Ok comp.
Proof.
  intros Hr Hok.
  assert (Hr' : reachable representative_point
                  (snd (add_component representative_point component label self)))
    by now constructor.
  assert (Hlast : cid_label cid = label
    /\ exists old comp,
         components (snd (add_component representative_point component label self))
         = (old ++ [(cid, comp)])%list).
  { destruct (add_component_cases component label self)
      as [(a & -> & Hall)
         |[(data & x & y & existing & -> & Hs & Hadd)
          |[(data & x & y & -> & Hs)
           |(Hext & Harr)]]].
    - rewrite (add_component_geometry_path a label self Hall) in *.
      simpl in *. injection Hok as <-. split; [reflexivity|].
      eexists (components self ++ [_; _])%list, _.
      rewrite <- app_assoc. simpl. reflexivity.
    - rewrite Hadd in Hok. discriminate.
    - rewrite (add_component_extended_fresh data x y label self Hs) in *.
      simpl in *. injection Hok as <-. split; [reflexivity|].
      now do 2 eexists.
    - rewrite (add_component_plain component label self Hext Harr) in *.
      simpl in *. injection Hok as <-. split; [reflexivity|].
      now do 2 eexists. }
  destruct Hlast as [Hlabel (old & comp & Hc)].
  split; [exact Hlabel|]. exists old, comp. split; [exact Hc|].
  unfold get_component.
  rewrite (lookup_in_distinct cid comp _ (reachable_ids_distinct _ Hr')).
  - reflexivity.
  - rewrite Hc. apply in_or_app. right. now left.
Qed.

End Properties.

(** ** The properties on the disks *)

(** C1: [add_component] with a raw geometry sequence on a container whose
    slot is already set does not raise.  The container holds the region
    column of two disks; a second sequence of two disks, of the same row
    count as every stored column, returns a new identifier, appends three
    more columns of two rows each and replaces the slot. *)
Lemma add_component_geometry_replaces_slot :
  let again :=
    add_component Disks.disk_point
      (ArrayLike [VGeometry (Disks.disk 5 5 2); VGeometry (Disks.disk 6 6 2)])
      "more" Disks.with_region in
  extended_component_id Disks.with_region = Some Disks.region
  /\ map (fun kv => component_length (snd kv)) (components Disks.with_region)
     = [2; 2; 2]
  /\ fst again = Ok (mkCid "more" 5)
  /\ map (fun kv => component_length (snd kv)) (components (snd again))
     = [2; 2; 2; 2; 2; 2]
  /\ map (fun kv => is_extended (snd kv)) (components (snd again))
     = [false; false; true; false; false; true]
  /\ extended_component_id (snd again) = Some (mkCid "more" 5).
Proof.
  vm_compute. repeat split; reflexivity.
Qed.

(** C4: on a container with a region column and no link for the target,
    [get_transform_to_cid] raises an [AttributeError] on either axis instead
    of returning [None]; [check_if_can_display] on the same container and
    target tests the link first and returns [False]. *)
Lemma get_transform_to_cid_without_link_raises :
  _get_external_link Disks.with_region Disks.unrelated = None
  /\ get_transform_to_cid Disks.with_region "x" Disks.unrelated
     = Raise (AttributeError "'NoneType' object has no attribute 'get_from_ids'")
  /\ get_transform_to_cid Disks.with_region "y" Disks.unrelated
     = Raise (AttributeError "'NoneType' object has no attribute 'get_from_ids'")
  /\ check_if_can_display Disks.same_cid Disks.with_region Disks.unrelated
     = Ok false.
Proof.
  vm_compute. repeat split; reflexivity.
Qed.

Lemma add_component_geometry_sequence_witness :
  extended_component_id Disks.empty = None
  /\ exists cid self',
       add_component Disks.disk_point
         (ArrayLike (map VGeometry Disks.two_disks)) "geo" Disks.empty
       = (Ok cid, self')
       /\ length (components self') = 3
       /\ extended_component_id self' = Some cid.
Proof.
  split; [reflexivity|].
  destruct (add_component_geometry_sequence Disks.disk_point
              Disks.two_disks "geo" Disks.empty eq_refl)
    as (cx & cy & cid & xs & ys & self' & Hadd & _ & _ & _ & _ & _ & _ & _ & _
        & _ & Hlen & Hslot).
  exists cid, self'. repeat split; assumption.
Defined.

Lemma add_component_second_extended_witness :
  extended_component_id Disks.with_region = Some Disks.region
  /\ add_component Disks.disk_point
       (IsComponent
          (ExtendedComponent [Disks.disk 2 2 1] Disks.center_x Disks.center_y))
       "again" Disks.with_region
     = (Raise (ValueError
                 "Cannot add another ExtendedComponent; existing extended component: geo"),
        Disks.with_region).
Proof.
  split; [reflexivity|].
  exact (add_component_second_extended Disks.disk_point Disks.with_region
           Disks.region [Disks.disk 2 2 1] Disks.center_x Disks.center_y
           "again" eq_refl).
Defined.

Lemma get_transform_to_cid_linked_witness :
  center_x_id Disks.linked = Ok Disks.center_x
  /\ _get_external_link Disks.linked Disks.other = Some Disks.to_other
  /\ get_transform_to_cid Disks.linked "x" Disks.other
     = Ok (get_using Disks.to_other).
Proof.
  split; [reflexivity|]. split; [reflexivity|].
  exact (get_transform_to_cid_linked Disks.linked "x" Disks.other
           Disks.center_x Disks.to_other
           (or_introl (conj eq_refl eq_refl)) eq_refl).
Defined.

Lemma check_if_can_display_cases_witness :
  center_x_id Disks.linked = Ok Disks.center_x
  /\ center_y_id Disks.linked = Ok Disks.center_y
  /\ check_if_can_display Disks.same_cid Disks.linked Disks.other = Ok true.
Proof.
  split; [reflexivity|]. split; [reflexivity|].
  exact (check_if_can_display_cases Disks.same_cid Disks.linked Disks.other
           Disks.center_x Disks.center_y eq_refl eq_refl).
Defined.

Lemma get_transform_to_cid_invalid_axis_witness :
  "z" <> "x" /\ "z" <> "y"
  /\ get_transform_to_cid Disks.linked "z" Disks.other
     = Raise (ValueError "axis must be 'x' or 'y'").
Proof.
  assert (Hx : "z" <> "x") by discriminate.
  assert (Hy : "z" <> "y") by discriminate.
  split; [exact Hx|]. split; [exact Hy|].
  exact (get_transform_to_cid_invalid_axis Disks.linked "z" Disks.other Hx Hy).
Defined.

Lemma center_ids_follow_extended_component_witness :
  reachable Disks.disk_point Disks.with_region
  /\ extended_component_id Disks.with_region = Some Disks.region
  /\ exists data x y,
       get_component Disks.with_region
         (extended_component_id Disks.with_region)
       = Ok (ExtendedComponent data x y)
       /\ center_x_id Disks.with_region = Ok x
       /\ center_y_id Disks.with_region = Ok y.
Proof.
  assert (Hr : reachable Disks.disk_point Disks.with_region).
  { exact (reachable_add_component Disks.disk_point Disks.empty
             (ArrayLike (map VGeometry Disks.two_disks)) "geo"
             (reachable_init Disks.disk_point [])). }
  split; [exact Hr|]. split; [reflexivity|].
  exact (center_ids_follow_extended_component Disks.disk_point
           Disks.with_region Disks.region Hr eq_refl).
Defined.

Lemma center_ids_unset_slot_witness :
  extended_component_id Disks.empty = None
  /\ center_x_id Disks.empty = Raise UnresolvedReference
  /\ center_y_id Disks.empty = Raise UnresolvedReference.
Proof.
  split; [reflexivity|].
  exact (center_ids_unset_slot Disks.empty eq_refl).
Defined.

(** ** Further properties on the disks *)

Lemma with_region_reachable : reachable Disks.disk_point Disks.with_region.
Proof.
  exact (reachable_add_component Disks.disk_point Disks.empty
           (ArrayLike (map VGeometry Disks.two_disks)) "geo"
           (reachable_init Disks.disk_point [])).
Qed.

Lemma with_centers_reachable : reachable Disks.disk_point Disks.with_centers.
Proof.
  unfold Disks.with_centers.
  do 2 apply reachable_add_component. apply reachable_init.
Qed.

Lemma add_component_delegates_witness :
  forallb isinstance_Geometry Disks.mixed = false
  /\ exists cid,
       fst (add_component Disks.disk_point (ArrayLike Disks.mixed) "notes"
              Disks.with_region) = Ok cid
       /\ extended_component_id
            (snd (add_component Disks.disk_point (ArrayLike Disks.mixed) "notes"
                    Disks.with_region))
          = Some Disks.region.
Proof.
  split; [reflexivity|].
  destruct (add_component_delegates Disks.disk_point (ArrayLike Disks.mixed)
              "notes" Disks.with_region
              (or_intror (ex_intro _ Disks.mixed (conj eq_refl eq_refl))))
    as (cid & Hok & _ & _ & Hslot).
  exists cid. split; [exact Hok | exact Hslot].
Defined.

Lemma add_component_prebuilt_read_back_witness :
  extended_component_id Disks.with_centers = None
  /\ exists cid self',
       add_component Disks.disk_point (IsComponent Disks.extended_comp)
         "boundaries" Disks.with_centers = (Ok cid, self')
       /\ center_x_id self' = Ok Disks.cen_x
       /\ center_y_id self' = Ok Disks.cen_y.
Proof.
  split; [reflexivity|].
  destruct (add_component_prebuilt_read_back Disks.disk_point Disks.two_disks
              Disks.cen_x Disks.cen_y "boundaries" Disks.with_centers
              with_centers_reachable eq_refl)
    as (cid & self' & Hadd & _ & _ & _ & Hx & Hy).
  exists cid, self'. repeat split; assumption.
Defined.

Lemma add_component_geometry_read_back_witness :
  forallb isinstance_Geometry
    (map (@VGeometry Disks.Disk nat) Disks.two_disks) = true
  /\ exists cen_x_id cen_y_id,
       center_x_id Disks.with_region = Ok cen_x_id
       /\ center_y_id Disks.with_region = Ok cen_y_id
       /\ get_component Disks.with_region (Some cen_x_id)
          = Ok (PlainComponent [VNumber 0; VNumber 1])
       /\ get_component Disks.with_region (Some cen_y_id)
          = Ok (PlainComponent [VNumber 0; VNumber 1]).
Proof.
  split; [reflexivity|].
  destruct (add_component_geometry_read_back Disks.disk_point
              (map VGeometry Disks.two_disks) "geo" Disks.empty
              (reachable_init Disks.disk_point []) eq_refl)
    as (cx & cy & self' & Hs & Hx & Hy & _ & Hgx & Hgy).
  exists cx, cy. change Disks.with_region with
    (snd (add_component Disks.disk_point
            (ArrayLike (map VGeometry Disks.two_disks)) "geo" Disks.empty)).
  rewrite Hs. repeat split; assumption.
Defined.

Lemma add_component_keeps_columns_witness :
  get_component Disks.with_region (Some Disks.center_x)
  = Ok (PlainComponent [VNumber 0; VNumber 1])
  /\ get_component
       (snd (add_component Disks.disk_point (ArrayLike Disks.mixed) "notes"
               Disks.with_region))
       (Some Disks.center_x)
     = Ok (PlainComponent [VNumber 0; VNumber 1]).
Proof.
  split; [reflexivity|].
  exact (add_component_keeps_columns Disks.disk_point (ArrayLike Disks.mixed)
           "notes" Disks.with_region Disks.center_x _ eq_refl).
Defined.

Lemma add_component_keeps_slot_witness :
  extended_component_id Disks.with_region = Some Disks.region
  /\ exists e',
       extended_component_id
         (snd (add_component Disks.disk_point (ArrayLike Disks.mixed) "notes"
                 Disks.with_region))
       = Some e'.
Proof.
  split; [reflexivity|].
  exact (proj1 (add_component_keeps_slot Disks.disk_point
                  (ArrayLike Disks.mixed) "notes" Disks.with_region
                  Disks.region eq_refl)).
Defined.

Lemma reachable_slot_unset_iff_witness :
  reachable Disks.disk_point Disks.with_centers
  /\ extended_component_id Disks.with_centers = None.
Proof.
  split; [exact with_centers_reachable|].
  exact (proj2 (reachable_slot_unset_iff Disks.disk_point Disks.with_centers
                  with_centers_reachable) eq_refl).
Defined.

Lemma reachable_columns_resolve_witness :
  In (Disks.center_y, PlainComponent [VNumber 0; VNumber 1])
    (components Disks.with_region)
  /\ get_component Disks.with_region (Some Disks.center_y)
     = Ok (PlainComponent [VNumber 0; VNumber 1]).
Proof.
  assert (Hin : In (Disks.center_y, PlainComponent [VNumber 0; VNumber 1])
                  (components Disks.with_region))
    by (right; left; reflexivity).
  split; [exact Hin|].
  exact (reachable_columns_resolve Disks.disk_point Disks.with_region
           Disks.center_y _ with_region_reachable Hin).
Defined.

Lemma queries_without_region_witness :
  extended_component_id Disks.with_centers = None
  /\ get_transform_to_cid Disks.with_centers "y" Disks.other
     = Raise UnresolvedReference
  /\ check_if_can_display Disks.same_cid Disks.with_centers Disks.other
     = Raise UnresolvedReference.
Proof.
  split; [reflexivity|].
  exact (queries_without_region Disks.same_cid Disks.with_centers "y"
           Disks.other eq_refl (or_intror eq_refl)).
Defined.

Lemma get_transform_to_cid_some_witness :
  get_transform_to_cid Disks.linked "x" Disks.other
  = Ok (get_using Disks.to_other)
  /\ exists this_cid link,
       _get_external_link Disks.linked Disks.other = Some link
       /\ center_x_id Disks.linked = Ok this_cid.
Proof.
  split; [reflexivity|].
  destruct (get_transform_to_cid_some Disks.linked "x" Disks.other
              (fun v => v + 10) eq_refl)
    as (this_cid & link & [[_ Hc]|[Hax _]] & Hl & _).
  - exists this_cid, link. split; assumption.
  - discriminate Hax.
Defined.

Lemma add_component_slot_change_witness :
  extended_component_id
    (snd (add_component Disks.disk_point (IsComponent Disks.extended_comp)
            "boundaries" Disks.with_centers))
  <> extended_component_id Disks.with_centers
  /\ exists cid,
       fst (add_component Disks.disk_point (IsComponent Disks.extended_comp)
              "boundaries" Disks.with_centers) = Ok cid
       /\ extended_component_id
            (snd (add_component Disks.disk_point (IsComponent Disks.extended_comp)
                    "boundaries" Disks.with_centers))
          = Some cid.
Proof.
  assert (Hne : extended_component_id
            (snd (add_component Disks.disk_point
                    (IsComponent Disks.extended_comp)
                    "boundaries" Disks.with_centers))
          <> extended_component_id Disks.with_centers)
    by discriminate.
  split; [exact Hne|].
  destruct (add_component_slot_change Disks.disk_point
              (IsComponent Disks.extended_comp) "boundaries"
              Disks.with_centers Hne)
    as (cid & _ & _ & _ & _ & Hok & Hs & _).
  exists cid. split; assumption.
Defined.

Lemma add_component_returned_id_resolves_witness :
  fst (add_component Disks.disk_point (ArrayLike Disks.mixed) "notes"
         Disks.with_region)
  = Ok (mkCid "notes" 3)
  /\ get_component
       (snd (add_component Disks.disk_point (ArrayLike Disks.mixed) "notes"
               Disks.with_region))
       (Some (mkCid "notes" 3))
     = Ok (PlainComponent Disks.mixed).
Proof.
  split; [reflexivity|].
  destruct (add_component_returned_id_resolves Disks.disk_point
              (ArrayLike Disks.mixed) "notes" Disks.with_region
              (mkCid "notes" 3) with_region_reachable eq_refl)
    as (_ & old & comp & Hc & Hg).
  rewrite Hg. f_equal.
  apply (f_equal (fun l => last l (mkCid "" 0, PlainComponent []))) in Hc.
  rewrite last_last in Hc. simpl in Hc. now injection Hc as <-.
Defined.
